(** * Volatility impact on returns: the simulation core of
    [volatility_impact_on_returns2.ipynb]

    The notebook samples yearly return rates from a normal distribution,
    runs them through a contribution-then-growth accumulator, repeats
    that for a number of trials and reports the mean final value and the
    share of trials that reach a goal.

    The functions are duck-typed over Python numbers.  They are embedded
    over a [Number] interface with two instances: binary64 floats (what
    the notebook computes with) and exact rationals.  The pseudorandom
    source of numpy is an explicit state, and Python exceptions are
    explicit results. *)

From Stdlib Require Import String.
From Stdlib Require Import List ZArith QArith Lia Bool Sorted Permutation.
From Stdlib Require Import Floats.
Import ListNotations.

Set Implicit Arguments.
Set Warnings "-inexact-float".

(** ** Numbers *)

(** The arithmetic the notebook uses: [+], [*], [/], integer literals,
    and the comparisons [<=] (written [v >= t] in the source) and [==]. *)
Class Number (A : Type) : Type := {
  add : A -> A -> A;
  mul : A -> A -> A;
  div : A -> A -> A;
  of_Z : Z -> A;
  leb : A -> A -> bool;
  eqb : A -> A -> bool
}.

Declare Scope num_scope.
Delimit Scope num_scope with num.
Infix "+" := add : num_scope.
Infix "*" := mul : num_scope.
Infix "/" := div : num_scope.
Infix "<=?" := leb : num_scope.
Infix "=?" := eqb : num_scope.

(** Python's [float(n)] for an integer [n]; exact below [2^53]. *)
Definition float_of_Z (n : Z) : float :=
  match n with
  | Z0 => PrimFloat.of_uint63 (Uint63.of_Z 0)
  | Zpos _ => PrimFloat.of_uint63 (Uint63.of_Z n)
  | Zneg p => PrimFloat.opp (PrimFloat.of_uint63 (Uint63.of_Z (Zpos p)))
  end.

(** IEEE 754 binary64, round to nearest even: Python's [float] and
    numpy's [float64]. *)
#[export] Instance float_Number : Number float := {
  add := PrimFloat.add;
  mul := PrimFloat.mul;
  div := PrimFloat.div;
  of_Z := float_of_Z;
  leb := PrimFloat.leb;
  eqb := PrimFloat.eqb
}.

(** Exact rational arithmetic (Python's [fractions.Fraction]). *)
#[export] Instance Q_Number : Number Q := {
  add := Qplus;
  mul := Qmult;
  div := Qdiv;
  of_Z := inject_Z;
  leb := Qle_bool;
  eqb := Qeq_bool
}.

(** ** The accumulator *)

Section Accumulator.
Context {A : Type} `{Number A}.

(** One turn of the [for return_rate in returns_by_year] loop; the
    state is [(principal, value_by_year)]. *)
Definition year_step (contribution_per_year : A) (st : A * list A)
    (return_rate : A) : A * list A :=
  let '(principal, value_by_year) := st in
  (* Add the contribution first thing each year *)
  let principal := (principal + contribution_per_year)%num in
  (* Calculate growth/loss *)
  let principal := (principal * (of_Z 1 + return_rate))%num in
  (principal, value_by_year ++ [principal]).

Definition calculate_fund_returns (contribution_per_year : A)
    (returns_by_year : list A) (starting_principal : A) : list A :=
  snd (fold_left (year_step contribution_per_year) returns_by_year
                 (starting_principal, [])).

(** The recurrence of the account value: [v_0 = p] and
    [v_i = (v_(i-1) + c) * (1 + r_i)], where [r_i] is the rate at
    position [i - 1] of the list. *)
Fixpoint value_after (c p : A) (rs : list A) (i : nat) : A :=
  match i with
  | O => p
  | S j => ((value_after c p rs j + c) * (of_Z 1 + nth j rs (of_Z 0)))%num
  end.

End Accumulator.

(** ** Exceptions and the random source *)

(** The Python exceptions the notebook can meet. *)
Inductive exn : Type :=
| ValueError (msg : string)
| IndexError (msg : string)
| ZeroDivisionError (msg : string).

Inductive result (X : Type) : Type :=
| Ok (x : X)
| Raise (e : exn).

Arguments Ok {X} x.
Arguments Raise {X} e.

(** A computation that may draw from the generator and may raise: the
    generator state is threaded, and it is kept when an exception
    leaves the computation. *)
Definition M (Rng X : Type) : Type := Rng -> result X * Rng.

Definition ret {Rng X : Type} (x : X) : M Rng X := fun s => (Ok x, s).

Definition raise {Rng X : Type} (e : exn) : M Rng X := fun s => (Raise e, s).

Definition bind {Rng X Y : Type} (m : M Rng X) (k : X -> M Rng Y) : M Rng Y :=
  fun s =>
    match m s with
    | (Ok x, s') => k x s'
    | (Raise e, s') => (Raise e, s')
    end.

(** A result that does not touch the generator. *)
Definition lift {Rng X : Type} (r : result X) : M Rng X := fun s => (r, s).

Declare Scope sim_scope.
Delimit Scope sim_scope with sim.
Notation "x <- m ;; k" := (bind m (fun x => k))
  (at level 61, m at next level, right associativity) : sim_scope.

(** numpy's global generator, as an explicit state: one call draws one
    standard normal deviate and moves the state on. *)
Class RandomSource (A Rng : Type) : Type := {
  standard_normal : Rng -> A * Rng
}.

Section Simulation.
Context {A Rng : Type} `{Number A} `{RandomSource A Rng}.

(** [n] deviates in drawing order. *)
Fixpoint draws (n : nat) (s : Rng) : list A * Rng :=
  match n with
  | O => ([], s)
  | S n' =>
      let '(z, s1) := standard_normal s in
      let '(zs, s2) := draws n' s1 in
      (z :: zs, s2)
  end.

(** [np.random.randn(d0)] of the numpy library: an array of [d0]
    deviates; a negative dimension is refused with [ValueError]
    before anything is drawn. *)
Definition randn (d0 : Z) : M Rng (list A) :=
  if (d0 <? 0)%Z
  then raise (ValueError "negative dimensions are not allowed")
  else fun s => let '(zs, s') := draws (Z.to_nat d0) s in (Ok zs, s').

(** [return_mean + return_std * np.random.randn(years)], the scalar
    operations broadcast over the array. *)
Definition generate_return_rates (return_mean return_std : A) (years : Z)
    : M Rng (list A) :=
  (zs <- randn years ;;
   ret (map (fun z => return_mean + return_std * z)%num zs))%sim.

Definition make_mutual_fund (return_mean return_std : A) (years : Z)
    (yearly_addition : A) : M Rng (list A) :=
  (rates <- generate_return_rates return_mean return_std years ;;
   let fund_return_rates := map (fun percent => percent / of_Z 100)%num rates in
   let fund_value_by_year :=
     calculate_fund_returns yearly_addition fund_return_rates (of_Z 0) in
   ret fund_value_by_year)%sim.

(** ** The trial runner *)

(** Python's [l[-1]]. *)
Definition last_item (l : list A) : result A :=
  match rev l with
  | [] => Raise (IndexError "list index out of range")
  | x :: _ => Ok x
  end.

(** [[get_fund_returns()[-1] for i in range(n)]], [n] turns. *)
Fixpoint trials (get_fund_returns : M Rng (list A)) (n : nat)
    : M Rng (list A) :=
  match n with
  | O => ret []
  | S n' =>
      (value_by_year <- get_fund_returns ;;
       v <- lift (last_item value_by_year) ;;
       rest <- trials get_fund_returns n' ;;
       ret (v :: rest))%sim
  end.

(** [[get_fund_returns()[-1] for i in range(num_trials)]]; [range] of
    a number that is not positive is empty. *)
Definition end_returns_per_trial (get_fund_returns : M Rng (list A))
    (num_trials : Z) : M Rng (list A) :=
  trials get_fund_returns (Z.to_nat num_trials).

(** ** The reported statistics *)

(** Python's [sum]: left to right, starting from the integer 0. *)
Definition sum (l : list A) : A :=
  fold_left (fun acc x => acc + x)%num l (of_Z 0).

(** [sum(end_returns_per_trial) / num_trials].  On an empty batch the
    sum is the integer 0 and a zero divisor raises; the sum of a batch
    of numpy scalars is a numpy scalar, whose division does not
    raise. *)
Definition expected_return (end_returns : list A) (num_trials : Z)
    : result A :=
  match end_returns with
  | [] =>
      if (num_trials =? 0)%Z
      then Raise (ZeroDivisionError "division by zero")
      else Ok (of_Z 0 / of_Z num_trials)%num
  | _ :: _ => Ok (sum end_returns / of_Z num_trials)%num
  end.

(** [[i for i in end_returns if i >= threshold]]. *)
Definition reaching (end_returns : list A) (threshold : A) : list A :=
  filter (fun i => threshold <=? i)%num end_returns.

(** [len([i for i in end_returns if i >= threshold]) / num_trials]:
    the true division of two integers, kept as the exact quotient
    (Python returns the binary64 nearest to it). *)
Definition goal_probability (end_returns : list A) (threshold : A)
    (num_trials : Z) : result Q :=
  let reached := Z.of_nat (length (reaching end_returns threshold)) in
  if (num_trials =? 0)%Z
  then Raise (ZeroDivisionError "division by zero")
  else Ok (inject_Z reached / inject_Z num_trials)%Q.

(** The number of values that meet the goal, counted one by one. *)
Fixpoint count_reaching (threshold : A) (end_returns : list A) : nat :=
  match end_returns with
  | [] => O
  | v :: rest =>
      (if (threshold <=? v)%num then 1 else 0)
      + count_reaching threshold rest
  end.

End Simulation.

(** ** The notebook's funds *)

Section Funds.
Context {Rng : Type} `{RandomSource float Rng}.

Definition get_fund1_returns : M Rng (list float) :=
  make_mutual_fund 10%float 5.214%float 30 5500%float.
Definition get_fund2_returns : M Rng (list float) :=
  make_mutual_fund 8%float 4.665%float 30 5500%float.
Definition get_fund3_returns : M Rng (list float) :=
  make_mutual_fund 6%float 4.116%float 30 5500%float.
Definition get_fund4_returns : M Rng (list float) :=
  make_mutual_fund 4%float 3.566%float 30 5500%float.

Definition num_trials : Z := 100000.

End Funds.

(** A generator that replays a tape of deviates (and gives 0 once the
    tape is used up): a deterministic stand-in to run the simulation
    on. *)
#[export] Instance tape_source {A : Type} `{Number A} : RandomSource A (list A) := {
  standard_normal tape :=
    match tape with
    | [] => (of_Z 0, [])
    | z :: tape' => (z, tape')
    end
}.

(** ** Laws of the comparisons *)

(** What the goal count needs of [<=] and [==]: [<=] is transitive and
    equal values are related by it.  Reflexivity is not asked for: a
    float NaN is not [<=] itself. *)
Class NumberOrder (A : Type) `{Number A} : Prop := {
  leb_trans : forall x y z : A,
    (x <=? y)%num = true -> (y <=? z)%num = true -> (x <=? z)%num = true;
  eqb_leb : forall x y : A,
    (x =? y)%num = true -> (y <=? x)%num = true
}.

Arguments NumberOrder A {_}.

(** ** The relation between mean return and volatility *)

(** The fitted line of the notebook, on Python floats. *)
Definition investment_mean_to_std (mean_return : float) : float :=
  let slope := 3.2955407720697272%float in
  let intercept := 2.4677939920687453%float in
  (slope * mean_return + intercept)%float.

Definition mutual_fund_mean_returns : list float :=
  [10%float; 8%float; 6%float; 4%float].

(** [[investment_mean_to_std(mean_return / 12) for mean_return in
    mutual_fund_mean_returns]]. *)
Definition mutual_fund_std_returns : list float :=
  map (fun mean_return => investment_mean_to_std (mean_return / 12)%float)
      mutual_fund_mean_returns.

(** The x axis of the plot cell: [years = range(30)]. *)
Definition years : list Z := map Z.of_nat (seq 0 30).

(** ** Auxiliary notions for the statements *)

Section Notions.
Context {A : Type} `{Number A}.

(** The account value after all the years of [rs], computed without
    keeping the intermediate values. *)
Definition final_value (c : A) (rs : list A) (p : A) : A :=
  fold_left (fun v r => (v + c) * (of_Z 1 + r))%num rs p.

End Notions.

(** Two results over the rationals that agree: the same exception, or
    equal values. *)
Definition result_Qeq (x y : result Q) : Prop :=
  match x, y with
  | Ok a, Ok b => a == b
  | Raise e, Raise e' => e = e'
  | _, _ => False
  end.

(** Case analysis on the comparisons of exponents and mantissas that
    [SFcompare] makes on two finite floats. *)
Ltac by_comparisons :=
  change (Pos.compare_cont Eq) with Pos.compare;
  repeat match goal with
         | |- context [Z.compare ?a ?b] => destruct (Z.compare_spec a b)
         | |- context [Pos.compare ?a ?b] => destruct (Pos.compare_spec a b)
         end;
  simpl; intros; try reflexivity; try discriminate; lia.

Lemma SFleb_trans (x y z : spec_float) :
  SFleb x y = true -> SFleb y z = true -> SFleb x z = true.
Proof.
  unfold SFleb, SFcompare.
  destruct x as [sx|sx| |sx mx ex], y as [sy|sy| |sy my ey],
           z as [sz|sz| |sz mz ez];
    try destruct sx; try destruct sy; try destruct sz;
    try (intros; reflexivity); try (intros; discriminate);
    by_comparisons.
Qed.

Lemma SFeqb_SFleb (x y : spec_float) :
  SFeqb x y = true -> SFleb y x = true.
Proof.
  unfold SFeqb, SFleb, SFcompare.
  destruct x as [sx|sx| |sx mx ex], y as [sy|sy| |sy my ey];
    try destruct sx; try destruct sy;
    try (intros; reflexivity); try (intros; discriminate);
    by_comparisons.
Qed.

#[export] Instance float_NumberOrder : NumberOrder float.
Proof.
  split; simpl.
  - intros x y z. rewrite !leb_spec. apply SFleb_trans.
  - intros x y. rewrite eqb_spec, leb_spec. apply SFeqb_SFleb.
Qed.

#[export] Instance Q_NumberOrder : NumberOrder Q.
Proof.
  split; simpl.
  - intros x y z. rewrite !Qle_bool_iff. apply Qle_trans.
  - intros x y Hxy. apply Qeq_bool_iff in Hxy.
    apply Qle_bool_iff. rewrite Hxy. apply Qle_refl.
Qed.

(** ** The accumulator: the loop and its recurrence *)

Section AccumulatorFacts.
Context {A : Type} `{Number A}.

(** The list the loop has built so far is only ever extended. *)
Lemma year_loop_acc (c : A) (rs : list A) :
  forall (p : A) (acc : list A),
    fold_left (year_step c) rs (p, acc)
    = (fst (fold_left (year_step c) rs (p, [])),
       acc ++ snd (fold_left (year_step c) rs (p, []))).
Proof.
  induction rs as [|r rs IH]; intros p acc; simpl.
  - now rewrite app_nil_r.
  - rewrite IH.
    rewrite (IH _ [((p + c) * (of_Z 1 + r))%num]).
    simpl. now rewrite <- app_assoc.
Qed.

Lemma calculate_fund_returns_nil (c p : A) :
  calculate_fund_returns c [] p = [].
Proof. reflexivity. Qed.

(** One year unrolled: the value of the first year heads the
    trajectory and is the principal the later years start from. *)
Lemma calculate_fund_returns_cons (c r : A) (rs : list A) (p : A) :
  calculate_fund_returns c (r :: rs) p
  = ((p + c) * (of_Z 1 + r))%num
    :: calculate_fund_returns c rs ((p + c) * (of_Z 1 + r))%num.
Proof.
  unfold calculate_fund_returns. simpl.
  now rewrite year_loop_acc.
Qed.

Lemma value_after_shift (c p r : A) (rs : list A) (i : nat) :
  value_after c p (r :: rs) (S i)
  = value_after c ((p + c) * (of_Z 1 + r))%num rs i.
Proof.
  induction i as [|i IH]; [reflexivity|].
  change (value_after c p (r :: rs) (S (S i)))
    with ((value_after c p (r :: rs) (S i) + c)
          * (of_Z 1 + nth (S i) (r :: rs) (of_Z 0)))%num.
  now rewrite IH.
Qed.

(** C1: for every contribution [c], starting principal [p] and rates
    [r_1..r_n], [calculate_fund_returns c [r_1..r_n] p] is the list
    [v_1..v_n] of the recurrence [v_0 = p],
    [v_i = (v_(i-1) + c) * (1 + r_i)], in year order: the contribution
    is added before the year's multiplier is applied.  It holds for
    every number type, binary64 floats included. *)
Theorem calculate_fund_returns_recurrence (c p : A) (rs : list A) :
  calculate_fund_returns c rs p
  = map (value_after c p rs) (seq 1 (length rs)).
Proof.
  revert p. induction rs as [|r rs IH]; intros p.
  - reflexivity.
  - rewrite calculate_fund_returns_cons, IH.
    cbn [length seq map]. f_equal.
    rewrite <- (seq_shift (length rs) 1), map_map.
    apply map_ext. intros i. now rewrite value_after_shift.
Qed.

Lemma calculate_fund_returns_length (c : A) (rs : list A) :
  forall p : A, length (calculate_fund_returns c rs p) = length rs.
Proof.
  induction rs as [|r rs IH]; intros p; [reflexivity|].
  rewrite calculate_fund_returns_cons. simpl. now rewrite IH.
Qed.

End AccumulatorFacts.

(** ** The accumulator on concrete inputs *)

(** Zero returns: pure accumulation of the contributions. *)
Example accumulate_without_returns :
  calculate_fund_returns 1000%float [0%float; 0%float; 0%float] 0%float
  = [1000%float; 2000%float; 3000%float].
Proof. vm_compute. reflexivity. Qed.

(** C4: [calculate_fund_returns(0, [0.10, 0.10], 1000)] is exactly
    [[1100, 1210]]: in binary64 arithmetic, where [0.10] is the double
    nearest to one tenth and both products round to the integers, and
    in exact rational arithmetic. *)
Theorem compounding_without_contributions :
  calculate_fund_returns 0%float [0.10%float; 0.10%float] 1000%float
  = [1100%float; 1210%float]
  /\ Forall2 Qeq (calculate_fund_returns (0 : Q) [1 # 10; 1 # 10] 1000)
                 [1100; 1210].
Proof.
  split.
  - vm_compute. reflexivity.
  - repeat constructor.
Qed.

(** C8: [calculate_fund_returns(100, [-1.0], 0)] is [[0.0]]: a return
    of -100% leaves nothing of the year's contribution, in binary64
    arithmetic and in exact arithmetic. *)
Theorem total_loss_wipes_contribution :
  calculate_fund_returns 100%float [(-1.0)%float] 0%float = [0.0%float]
  /\ Forall2 Qeq (calculate_fund_returns (100 : Q) [- (1)] 0) [0].
Proof.
  split.
  - vm_compute. reflexivity.
  - repeat constructor.
Qed.

(** ** Homogeneity in the cash amounts *)

Lemma calculate_fund_returns_scale (k c : Q) (rs : list Q) :
  forall p p' : Q,
    p' == k * p ->
    Forall2 Qeq (calculate_fund_returns (k * c)%Q rs p')
                (map (Qmult k) (calculate_fund_returns c rs p)).
Proof.
  induction rs as [|r rs IH]; intros p p' Hp.
  - constructor.
  - rewrite !calculate_fund_returns_cons. cbn [map].
    assert (Hv : ((p' + k * c) * (of_Z 1 + r))%num
                 == k * ((p + c) * (of_Z 1 + r))%num).
    { simpl. rewrite Hp. ring. }
    constructor; [exact Hv | apply IH; exact Hv].
Qed.

(** C10: over exact arithmetic the accumulator is homogeneous in the
    cash amounts: scaling the contribution and the starting principal
    by [k] scales every value of the trajectory by [k]. *)
Theorem calculate_fund_returns_homogeneous (k c p : Q) (rs : list Q) :
  Forall2 Qeq (calculate_fund_returns (k * c)%Q rs (k * p)%Q)
              (map (Qmult k) (calculate_fund_returns c rs p)).
Proof. apply calculate_fund_returns_scale. reflexivity. Qed.

(** The restriction to exact arithmetic matters: binary64 products
    round, and the two sides can differ in the last place. *)
Example homogeneity_needs_exact_arithmetic :
  calculate_fund_returns (0.1 * 3)%float [0.5%float] (0.1 * 0)%float
  <> map (PrimFloat.mul 0.1) (calculate_fund_returns 3%float [0.5%float] 0%float).
Proof. vm_compute. intros E. discriminate E. Qed.

(** ** The sampler and the fund model *)

Section SimulationFacts.
Context {A Rng : Type} `{Number A} `{RandomSource A Rng}.

Lemma draws_length (n : nat) :
  forall s : Rng, length (fst (draws n s)) = n.
Proof.
  induction n as [|n IH]; intros s; simpl; [reflexivity|].
  destruct (standard_normal s) as [z s1].
  specialize (IH s1). destruct (draws n s1) as [zs s2].
  simpl in *. now rewrite IH.
Qed.

(** With a dimension that is not negative the sampler cannot fail:
    it scales and shifts the deviates it has drawn, whatever the sign
    of [return_std]. *)
Lemma generate_return_rates_ok (return_mean return_std : A) (years : Z)
    (s : Rng) :
  (0 <= years)%Z ->
  generate_return_rates return_mean return_std years s
  = (Ok (map (fun z => return_mean + return_std * z)%num
             (fst (draws (Z.to_nat years) s))),
     snd (draws (Z.to_nat years) s)).
Proof.
  intros Hy. unfold generate_return_rates, bind, randn, ret.
  destruct (Z.ltb_spec years 0) as [Hneg|_]; [lia|].
  now destruct (draws (Z.to_nat years) s).
Qed.

(** A negative dimension is refused by [randn] before a deviate is
    drawn: the generator is left as it was. *)
Lemma generate_return_rates_negative (return_mean return_std : A)
    (years : Z) (s : Rng) :
  (years < 0)%Z ->
  generate_return_rates return_mean return_std years s
  = (Raise (ValueError "negative dimensions are not allowed"), s).
Proof.
  intros Hy. unfold generate_return_rates, bind, randn, raise.
  destruct (Z.ltb_spec years 0) as [_|Hpos]; [reflexivity|lia].
Qed.

(** With a dimension that is not negative the fund model returns a
    trajectory, one value per deviate drawn. *)
Lemma make_mutual_fund_ok
    (return_mean return_std : A) (years : Z) (yearly_addition : A) (s : Rng) :
  (0 <= years)%Z ->
  make_mutual_fund return_mean return_std years yearly_addition s
  = (Ok (calculate_fund_returns yearly_addition
           (map (fun percent => percent / of_Z 100)%num
              (map (fun z => return_mean + return_std * z)%num
                 (fst (draws (Z.to_nat years) s))))
           (of_Z 0)),
     snd (draws (Z.to_nat years) s)).
Proof.
  intros Hy. unfold make_mutual_fund, bind at 1.
  now rewrite generate_return_rates_ok.
Qed.

(** An exception of the sampler leaves [make_mutual_fund] as it is. *)
Lemma make_mutual_fund_raises
    (return_mean return_std : A) (years : Z) (yearly_addition : A)
    (s s' : Rng) (e : exn) :
  generate_return_rates return_mean return_std years s = (Raise e, s') ->
  make_mutual_fund return_mean return_std years yearly_addition s
  = (Raise e, s').
Proof.
  intros Hgen. unfold make_mutual_fund, bind. now rewrite Hgen.
Qed.

(** C6: whatever percentages the sampler returns,
    [make_mutual_fund mean std years yearly_addition] is the
    accumulator run on [yearly_addition], the sampled sequence with
    every element divided by 100, and the starting principal 0. *)
Theorem make_mutual_fund_composition
    (return_mean return_std : A) (years : Z) (yearly_addition : A)
    (s s' : Rng) (sampled : list A) :
  generate_return_rates return_mean return_std years s = (Ok sampled, s') ->
  make_mutual_fund return_mean return_std years yearly_addition s
  = (Ok (calculate_fund_returns yearly_addition
           (map (fun percent => percent / of_Z 100)%num sampled)
           (of_Z 0)),
     s').
Proof.
  intros Hgen. unfold make_mutual_fund.
  unfold bind at 1. rewrite Hgen. reflexivity.
Qed.

(** C5: the trajectory of [calculate_fund_returns] is as long as
    [returns_by_year], so an empty sequence of returns gives an empty
    trajectory; and for every [years >= 0] the sampler returns a
    sequence of length [years]. *)
Theorem trajectory_and_sample_lengths :
  (forall (c p : A) (rs : list A),
      length (calculate_fund_returns c rs p) = length rs)
  /\ (forall c p : A, calculate_fund_returns c [] p = [])
  /\ (forall (return_mean return_std : A) (years : Z) (s : Rng),
         (0 <= years)%Z ->
         exists (rates : list A) (s' : Rng),
           generate_return_rates return_mean return_std years s
           = (Ok rates, s')
           /\ Z.of_nat (length rates) = years).
Proof.
  split; [|split].
  - intros c p rs. apply calculate_fund_returns_length.
  - intros c p. apply calculate_fund_returns_nil.
  - intros return_mean return_std years s Hy.
    eexists. eexists. split.
    + now apply generate_return_rates_ok.
    + rewrite length_map, draws_length. lia.
Qed.

(** ** The trial runner *)

Lemma last_item_nil : last_item (@nil A) = Raise (IndexError "list index out of range").
Proof. reflexivity. Qed.

Lemma last_item_ok (l : list A) :
  l <> [] -> exists v, last_item l = Ok v.
Proof.
  intros Hl. unfold last_item.
  destruct (rev l) as [|x l'] eqn:E.
  - apply (f_equal (@rev A)) in E. rewrite rev_involutive in E.
    contradiction.
  - now exists x.
Qed.

(** A batch the runner returns has one value per trial. *)
Lemma trials_length (fund : M Rng (list A)) (n : nat) :
  forall (s s' : Rng) (batch : list A),
    trials fund n s = (Ok batch, s') -> length batch = n.
Proof.
  induction n as [|n IH]; intros s s' batch; simpl.
  - unfold ret. intros E. now inversion E.
  - unfold bind, ret, lift.
    destruct (fund s) as [[traj|e] s1]; [|discriminate].
    destruct (last_item traj) as [v|e]; [|discriminate].
    destruct (trials fund n s1) as [[rest|e] s2] eqn:Erest; [|discriminate].
    intros E. inversion E; subst. simpl. f_equal. eapply IH; eauto.
Qed.

Lemma end_returns_per_trial_length (fund : M Rng (list A)) (n : Z)
    (s s' : Rng) (batch : list A) :
  end_returns_per_trial fund n s = (Ok batch, s') ->
  Z.of_nat (length batch) = Z.max 0 n.
Proof.
  unfold end_returns_per_trial. intros E.
  apply trials_length in E. rewrite E. lia.
Qed.

(** Without a trial nothing is run: no deviate is drawn and no
    exception can be met. *)
Lemma end_returns_per_trial_none (fund : M Rng (list A)) (n : Z) (s : Rng) :
  (n <= 0)%Z -> end_returns_per_trial fund n s = (Ok [], s).
Proof.
  intros Hn. unfold end_returns_per_trial.
  replace (Z.to_nat n) with O by lia. reflexivity.
Qed.

(** The first trial that raises ends the batch. *)
Lemma end_returns_per_trial_raises (fund : M Rng (list A)) (n : Z)
    (s s' : Rng) (e : exn) :
  (0 < n)%Z -> fund s = (Raise e, s') ->
  end_returns_per_trial fund n s = (Raise e, s').
Proof.
  intros Hn Hf. unfold end_returns_per_trial.
  destruct (Z.to_nat n) as [|m] eqn:E; [lia|].
  simpl. unfold bind. now rewrite Hf.
Qed.

Lemma end_returns_per_trial_empty_trajectory (fund : M Rng (list A))
    (n : Z) (s s' : Rng) :
  (0 < n)%Z -> fund s = (Ok [], s') ->
  end_returns_per_trial fund n s
  = (Raise (IndexError "list index out of range"), s').
Proof.
  intros Hn Hf. unfold end_returns_per_trial.
  destruct (Z.to_nat n) as [|m] eqn:E; [lia|].
  simpl. unfold bind. now rewrite Hf.
Qed.

(** With at least one year every trial succeeds: the runner returns a
    batch of [n] values. *)
Lemma trials_total (return_mean return_std : A) (years : Z)
    (yearly_addition : A) (n : nat) :
  (0 < years)%Z ->
  forall s : Rng,
  exists (batch : list A) (s' : Rng),
    trials (make_mutual_fund return_mean return_std years yearly_addition) n s
    = (Ok batch, s')
    /\ length batch = n.
Proof.
  intros Hy. induction n as [|n IH]; intros s.
  - exists [], s. split; reflexivity.
  - pose proof (make_mutual_fund_ok return_mean return_std yearly_addition s
                  (Z.lt_le_incl _ _ Hy)) as Hfund.
    set (traj := calculate_fund_returns _ _ _) in Hfund.
    assert (Htraj : traj <> []).
    { intros E. apply (f_equal (@length A)) in E. unfold traj in E.
      rewrite calculate_fund_returns_length, !length_map, draws_length in E.
      simpl in E. lia. }
    destruct (last_item_ok Htraj) as [v Hv].
    destruct (IH (snd (draws (Z.to_nat years) s))) as (rest & s' & Hrest & Hlen).
    exists (v :: rest), s'. split; [|simpl; now rewrite Hlen].
    simpl. unfold bind, lift, ret. now rewrite Hfund, Hv, Hrest.
Qed.

End SimulationFacts.

(** ** Parameters out of range *)

Section Parameters.
Context {A Rng : Type} `{Number A} `{RandomSource A Rng}.

(** C3, as the code has it: only a negative [years] is refused, by
    numpy's [randn], with a [ValueError] raised before any deviate is
    drawn; the error passes unchanged through
    [generate_return_rates], [make_mutual_fund] and the trial runner.
    Nothing else is checked and nothing is clamped: every
    [return_std], negative ones included, is used as given (each rate
    is [return_mean + return_std * z]), and a [num_trials] that is
    not positive gives an empty batch, without an error and without
    sampling. *)
Theorem parameter_checks (return_mean return_std : A) (years : Z)
    (yearly_addition : A) (n : Z) (s : Rng) :
  ((years < 0)%Z ->
     generate_return_rates return_mean return_std years s
     = (Raise (ValueError "negative dimensions are not allowed"), s)
     /\ make_mutual_fund return_mean return_std years yearly_addition s
        = (Raise (ValueError "negative dimensions are not allowed"), s)
     /\ ((0 < n)%Z ->
         end_returns_per_trial
           (make_mutual_fund return_mean return_std years yearly_addition) n s
         = (Raise (ValueError "negative dimensions are not allowed"), s)))
  /\ ((0 <= years)%Z ->
        generate_return_rates return_mean return_std years s
        = (Ok (map (fun z => return_mean + return_std * z)%num
                   (fst (draws (Z.to_nat years) s))),
           snd (draws (Z.to_nat years) s)))
  /\ ((n <= 0)%Z ->
        end_returns_per_trial
          (make_mutual_fund return_mean return_std years yearly_addition) n s
        = (Ok [], s)).
Proof.
  split; [|split].
  - intros Hy.
    pose proof (generate_return_rates_negative return_mean return_std s Hy)
      as Hgen.
    pose proof (make_mutual_fund_raises _ _ _ yearly_addition _ Hgen) as Hfund.
    split; [exact Hgen|]. split; [exact Hfund|].
    intros Hn. now apply end_returns_per_trial_raises.
  - apply generate_return_rates_ok.
  - apply end_returns_per_trial_none.
Qed.

(** C9, as the code has it: [years = 0] is accepted by the sampler
    and by the fund model, which return an empty sequence and an
    empty trajectory without an error and without drawing; a run of
    no trials is an empty batch; but a run of at least one trial
    takes the last element of the empty trajectory and raises
    [IndexError]. *)
Theorem zero_years (return_mean return_std yearly_addition : A)
    (n : Z) (s : Rng) :
  generate_return_rates return_mean return_std 0 s = (Ok [], s)
  /\ make_mutual_fund return_mean return_std 0 yearly_addition s = (Ok [], s)
  /\ ((n <= 0)%Z ->
        end_returns_per_trial
          (make_mutual_fund return_mean return_std 0 yearly_addition) n s
        = (Ok [], s))
  /\ ((0 < n)%Z ->
        end_returns_per_trial
          (make_mutual_fund return_mean return_std 0 yearly_addition) n s
        = (Raise (IndexError "list index out of range"), s)).
Proof.
  assert (Hfund :
    make_mutual_fund return_mean return_std 0 yearly_addition s = (Ok [], s))
    by reflexivity.
  split; [reflexivity|]. split; [exact Hfund|]. split.
  - apply end_returns_per_trial_none.
  - intros Hn. now apply end_returns_per_trial_empty_trajectory.
Qed.

End Parameters.

(** C3 fails on the code: a negative standard deviation is used
    like any other (one trial of one year, deviate 2, gives the
    rate 10 - 2 = 8 percent and the value 5500 * 1.08 = 5940), and a run
    of zero trials ends without an error. *)
Lemma invalid_parameters_accepted :
  (- (1) < 0)%Q
  /\ (exists batch : list Q,
        end_returns_per_trial (make_mutual_fund 10 (- (1)) 1 5500) 1 [2 # 1]
        = (Ok batch, [])
        /\ Forall2 Qeq batch [5940 # 1])
  /\ end_returns_per_trial (make_mutual_fund 10 5 30 5500) 0 [2 # 1]
     = (Ok [], [2 # 1]).
Proof.
  split; [reflexivity|]. split; [|reflexivity].
  eexists. split; [vm_compute; reflexivity|].
  repeat constructor.
Qed.

(** C9 fails on the code: with [years = 0] the first trial raises
    [IndexError] on the empty trajectory. *)
Lemma zero_years_trial_raises :
  end_returns_per_trial
    (make_mutual_fund 10%float 5.214%float 0 5500%float) 1
    [0.3%float; (-1.2)%float]
  = (Raise (IndexError "list index out of range"),
     [0.3%float; (-1.2)%float]).
Proof. vm_compute. reflexivity. Qed.

(** ** The reported statistics *)

(** The quotient of two counts. *)
Lemma ratio_le (a b n : Z) :
  (a <= b)%Z -> (0 < n)%Z ->
  (inject_Z a / inject_Z n <= inject_Z b / inject_Z n)%Q.
Proof.
  intros Hab Hn. unfold Qdiv.
  apply Qmult_le_compat_r.
  - now rewrite <- Zle_Qle.
  - apply Qinv_le_0_compat. change 0%Q with (inject_Z 0).
    rewrite <- Zle_Qle. lia.
Qed.

Lemma ratio_unit_interval (a n : Z) :
  (0 <= a <= n)%Z -> (0 < n)%Z ->
  (0 <= inject_Z a / inject_Z n <= 1)%Q.
Proof.
  intros [Ha Han] Hn.
  assert (Hn' : (0 < inject_Z n)%Q).
  { change 0%Q with (inject_Z 0). now rewrite <- Zlt_Qlt. }
  split.
  - apply Qle_shift_div_l; [exact Hn'|].
    rewrite Qmult_0_l. change 0%Q with (inject_Z 0).
    now rewrite <- Zle_Qle.
  - apply Qle_shift_div_r; [exact Hn'|].
    rewrite Qmult_1_l. now rewrite <- Zle_Qle.
Qed.

Section Statistics.
Context {A : Type} `{Number A}.

Lemma reaching_length (end_returns : list A) (threshold : A) :
  length (reaching end_returns threshold)
  = count_reaching threshold end_returns.
Proof.
  unfold reaching.
  induction end_returns as [|v rest IH]; simpl; [reflexivity|].
  destruct (threshold <=? v)%num; simpl; now rewrite IH.
Qed.

Lemma count_reaching_le_length (threshold : A) (end_returns : list A) :
  (count_reaching threshold end_returns <= length end_returns)%nat.
Proof.
  induction end_returns as [|v rest IH]; simpl; [lia|].
  destruct (threshold <=? v)%num; lia.
Qed.

Lemma goal_probability_ok (end_returns : list A) (threshold : A) (n : Z) :
  (0 < n)%Z ->
  goal_probability end_returns threshold n
  = Ok (inject_Z (Z.of_nat (count_reaching threshold end_returns))
        / inject_Z n)%Q.
Proof.
  intros Hn. unfold goal_probability.
  destruct (Z.eqb_spec n 0) as [E|_]; [lia|].
  now rewrite reaching_length.
Qed.

Context `{!NumberOrder A}.

(** A higher goal is met by fewer trials. *)
Lemma count_reaching_antitone (t1 t2 : A) (end_returns : list A) :
  (t1 <=? t2)%num = true ->
  (count_reaching t2 end_returns <= count_reaching t1 end_returns)%nat.
Proof.
  intros Ht. induction end_returns as [|v rest IH]; simpl; [lia|].
  destruct (t2 <=? v)%num eqn:E2.
  - rewrite (leb_trans _ _ _ Ht E2). lia.
  - destruct (t1 <=? v)%num; lia.
Qed.

(** C2: for a batch of [num_trials] final values, the reported
    expected value is the sum of the values divided by [num_trials],
    the arithmetic mean, and the reported probability of a goal [t]
    is the number of values [>= t] divided by [num_trials]; a value
    equal to [t] is counted. *)
Theorem summary_statistics (end_returns : list A) (t : A) (n : Z) :
  n = Z.of_nat (length end_returns) -> (0 < n)%Z ->
  expected_return end_returns n
  = Ok (sum end_returns / of_Z (Z.of_nat (length end_returns)))%num
  /\ goal_probability end_returns t n
     = Ok (inject_Z (Z.of_nat (count_reaching t end_returns))
           / inject_Z (Z.of_nat (length end_returns)))%Q
  /\ (forall (v : A) (rest : list A),
         (v =? t)%num = true ->
         count_reaching t (v :: rest) = S (count_reaching t rest)).
Proof.
  intros Hlen Hn. split; [|split].
  - destruct end_returns as [|v rest]; [simpl in Hlen; lia|].
    unfold expected_return. now rewrite Hlen.
  - rewrite (goal_probability_ok _ _ Hn). now rewrite Hlen.
  - intros v rest Hv. simpl. now rewrite (eqb_leb _ _ Hv).
Qed.

(** C7: for a fixed batch of [num_trials] values and goals
    [t1 <= t2], the probability reported for [t1] is at least the one
    reported for [t2], and both lie in [[0, 1]].  The batch may be
    shorter than [num_trials]; it is never longer. *)
Theorem goal_probability_monotone (end_returns : list A) (t1 t2 : A)
    (n : Z) :
  (t1 <=? t2)%num = true ->
  (0 < n)%Z -> (Z.of_nat (length end_returns) <= n)%Z ->
  exists p1 p2 : Q,
    goal_probability end_returns t1 n = Ok p1
    /\ goal_probability end_returns t2 n = Ok p2
    /\ (p2 <= p1)%Q
    /\ (0 <= p1 <= 1)%Q /\ (0 <= p2 <= 1)%Q.
Proof.
  intros Ht Hn Hlen.
  pose proof (count_reaching_antitone _ _ end_returns Ht) as Hmono.
  pose proof (count_reaching_le_length t1 end_returns) as H1.
  pose proof (count_reaching_le_length t2 end_returns) as H2.
  do 2 eexists.
  split; [now apply goal_probability_ok|].
  split; [now apply goal_probability_ok|].
  split; [apply ratio_le; lia|].
  split; apply ratio_unit_interval; lia.
Qed.

End Statistics.

(** ** The theorems on concrete runs *)

(** Three years sampled from a tape of two deviates. *)
Lemma trajectory_and_sample_lengths_witness :
  (0 <= 3)%Z
  /\ exists (rates : list Q) (s' : list Q),
       generate_return_rates 10 5 3 [1; 2] = (Ok rates, s')
       /\ Z.of_nat (length rates) = 3%Z.
Proof.
  split; [lia|].
  apply (proj2 (proj2 (@trajectory_and_sample_lengths Q (list Q) _ _))).
  lia.
Defined.

(** A fund of two years at 10% mean and 5% deviation, deviates 1 and
    -1: the rates are 15% and 5%. *)
Lemma make_mutual_fund_composition_witness :
  generate_return_rates 10 5 2 [1; - (1)]
  = (Ok [10 + 5 * 1; 10 + 5 * - (1)], [])
  /\ make_mutual_fund 10 5 2 5500 [1; - (1)]
     = (Ok (calculate_fund_returns 5500
              (map (fun percent => percent / of_Z 100)%num
                   [10 + 5 * 1; 10 + 5 * - (1)])
              (of_Z 0)),
        []).
Proof.
  split; [reflexivity|].
  apply (@make_mutual_fund_composition Q (list Q) _ _ 10 5 2 5500
           [1; - (1)] [] [10 + 5 * 1; 10 + 5 * - (1)]).
  reflexivity.
Defined.

(** [years = -1] with one trial, and no trial at all. *)
Lemma parameter_checks_witness :
  (-1 < 0)%Z
  /\ generate_return_rates 10%float 5.214%float (-1) [0.3%float]
     = (Raise (ValueError "negative dimensions are not allowed"), [0.3%float])
  /\ (0 <= 0)%Z
  /\ end_returns_per_trial
       (make_mutual_fund 10%float 5.214%float (-1) 5500%float) 0 [0.3%float]
     = (Ok [], [0.3%float]).
Proof.
  pose proof (@parameter_checks float (list float) _ _
                10%float 5.214%float (-1) 5500%float 0 [0.3%float])
    as [Hneg [_ Hnone]].
  split; [lia|]. split; [apply Hneg; lia|].
  split; [lia|]. apply Hnone. lia.
Defined.

(** [years = 0] with two trials. *)
Lemma zero_years_witness :
  (0 < 2)%Z
  /\ end_returns_per_trial
       (make_mutual_fund 10%float 5.214%float 0 5500%float) 2 [0.3%float]
     = (Raise (IndexError "list index out of range"), [0.3%float]).
Proof.
  split; [lia|].
  apply (proj2 (proj2 (proj2
    (@zero_years float (list float) _ _
       10%float 5.214%float 5500%float 2 [0.3%float])))).
  lia.
Defined.

(** Three trials, of which two reach 450000, one of them exactly. *)
Lemma summary_statistics_witness :
  expected_return [300000%float; 450000%float; 500000%float] 3
  = Ok ((0 + 300000 + 450000 + 500000) / 3)%float
  /\ goal_probability [300000%float; 450000%float; 500000%float]
       450000%float 3
     = Ok (2 # 3).
Proof.
  pose proof (@summary_statistics float _ _
                [300000%float; 450000%float; 500000%float] 450000%float 3
                eq_refl eq_refl)
    as [Hmean [Hprob _]].
  split; [exact Hmean | exact Hprob].
Defined.

(** The notebook's two goals on a batch of three trials. *)
Lemma goal_probability_monotone_witness :
  (450000 <=? 670000)%float = true
  /\ exists p1 p2 : Q,
       goal_probability [300000%float; 700000%float; 500000%float]
         450000%float 3 = Ok p1
       /\ goal_probability [300000%float; 700000%float; 500000%float]
            670000%float 3 = Ok p2
       /\ (p2 <= p1)%Q
       /\ (0 <= p1 <= 1)%Q /\ (0 <= p2 <= 1)%Q.
Proof.
  split; [reflexivity|].
  apply (@goal_probability_monotone float _ _
           [300000%float; 700000%float; 500000%float]
           450000%float 670000%float 3).
  - reflexivity.
  - reflexivity.
  - discriminate.
Defined.

(** * Further properties of the code *)

(** ** The accumulator, year by year *)

Section AccumulatorComposition.
Context {A : Type} `{Number A}.

Lemma final_value_cons (c r : A) (rs : list A) (p : A) :
  final_value c (r :: rs) p
  = final_value c rs ((p + c) * (of_Z 1 + r))%num.
Proof. reflexivity. Qed.

(** X1: a run over the years [rs1 ++ rs2] is the run over [rs1]
    followed by the run over [rs2] that starts from the value [rs1]
    ended with: [starting_principal] lets a trajectory be continued. *)
Theorem calculate_fund_returns_continue (c : A) (rs1 rs2 : list A) :
  forall p : A,
    calculate_fund_returns c (rs1 ++ rs2) p
    = calculate_fund_returns c rs1 p
      ++ calculate_fund_returns c rs2 (final_value c rs1 p).
Proof.
  induction rs1 as [|r rs1 IH]; intros p.
  - reflexivity.
  - rewrite <- app_comm_cons, !calculate_fund_returns_cons, final_value_cons.
    now rewrite IH.
Qed.

(** X2: the value of a year depends on the returns up to that year
    only: the first [k] values of a trajectory are the trajectory of
    the first [k] returns. *)
Theorem calculate_fund_returns_firstn (c : A) (rs : list A) :
  forall (k : nat) (p : A),
    firstn k (calculate_fund_returns c rs p)
    = calculate_fund_returns c (firstn k rs) p.
Proof.
  induction rs as [|r rs IH]; intros k p.
  - now rewrite !firstn_nil.
  - destruct k as [|k]; [reflexivity|].
    rewrite calculate_fund_returns_cons. cbn [firstn].
    now rewrite calculate_fund_returns_cons, IH.
Qed.

Lemma last_item_snoc (l : list A) (x : A) : last_item (l ++ [x]) = Ok x.
Proof. unfold last_item. now rewrite rev_app_distr. Qed.

Lemma last_item_trajectory (c : A) (rs : list A) :
  rs <> [] ->
  forall (p : A) (acc : list A),
    last_item (acc ++ calculate_fund_returns c rs p)
    = Ok (final_value c rs p).
Proof.
  induction rs as [|r rs IH]; intros Hrs p acc; [contradiction|].
  rewrite calculate_fund_returns_cons, final_value_cons.
  destruct rs as [|r' rs'].
  - rewrite calculate_fund_returns_nil. apply last_item_snoc.
  - set (v := ((p + c) * (of_Z 1 + r))%num).
    change (acc ++ v :: calculate_fund_returns c (r' :: rs') v)
      with (acc ++ [v] ++ calculate_fund_returns c (r' :: rs') v).
    rewrite app_assoc. apply IH. discriminate.
Qed.

(** X3: the value a trial keeps, the last element [[-1]] of a
    trajectory over at least one year, is the principal the loop ends
    with; it can be computed by folding over the returns without
    building the trajectory. *)
Theorem last_item_is_final_value (c p : A) (rs : list A) :
  rs <> [] ->
  last_item (calculate_fund_returns c rs p) = Ok (final_value c rs p).
Proof.
  intros Hrs. apply (last_item_trajectory c Hrs p []).
Qed.

End AccumulatorComposition.

Lemma last_item_is_final_value_witness :
  last_item (calculate_fund_returns 0%float [0.10%float; 0.10%float] 1000%float)
  = Ok 1210%float.
Proof.
  refine (@last_item_is_final_value float _ 0%float 1000%float
            [0.10%float; 0.10%float] _).
  discriminate.
Defined.

(** ** The accumulator over exact arithmetic *)

Lemma Forall2_Qeq_refl (l : list Q) : Forall2 Qeq l l.
Proof. induction l; constructor; [reflexivity | assumption]. Qed.

(** Equal rationals in, equal rationals out. *)
Lemma calculate_fund_returns_Qeq (c c' : Q) (rs rs' : list Q) :
  c == c' -> Forall2 Qeq rs rs' ->
  forall p p' : Q,
    p == p' ->
    Forall2 Qeq (calculate_fund_returns c rs p)
                (calculate_fund_returns c' rs' p').
Proof.
  intros Hc Hrs. induction Hrs as [|r r' rs rs' Hr _ IH]; intros p p' Hp.
  - constructor.
  - rewrite !calculate_fund_returns_cons.
    assert (Hv : ((p + c) * (of_Z 1 + r))%num
                 == ((p' + c') * (of_Z 1 + r'))%num).
    { simpl. now rewrite Hc, Hr, Hp. }
    constructor; [exact Hv | now apply IH].
Qed.

Lemma calculate_fund_returns_sum (c1 c2 : Q) (rs : list Q) :
  forall p1 p2 p : Q,
    p == p1 + p2 ->
    Forall2 Qeq
      (calculate_fund_returns (c1 + c2)%Q rs p)
      (map (fun vv => fst vv + snd vv)
           (combine (calculate_fund_returns c1 rs p1)
                    (calculate_fund_returns c2 rs p2))).
Proof.
  induction rs as [|r rs IH]; intros p1 p2 p Hp.
  - constructor.
  - rewrite !calculate_fund_returns_cons. cbn [combine map fst snd].
    assert (Hv : ((p + (c1 + c2)) * (of_Z 1 + r))%num
                 == ((p1 + c1) * (of_Z 1 + r))%num
                    + ((p2 + c2) * (of_Z 1 + r))%num).
    { simpl. rewrite Hp. ring. }
    constructor; [exact Hv | now apply IH].
Qed.

(** X4: over exact arithmetic the accumulator is additive in the cash
    amounts: the trajectory of two contribution plans run together is
    the year-by-year sum of their trajectories. *)
Theorem calculate_fund_returns_additive (c1 c2 p1 p2 : Q) (rs : list Q) :
  Forall2 Qeq
    (calculate_fund_returns (c1 + c2)%Q rs (p1 + p2)%Q)
    (map (fun vv => fst vv + snd vv)
         (combine (calculate_fund_returns c1 rs p1)
                  (calculate_fund_returns c2 rs p2))).
Proof. apply calculate_fund_returns_sum. reflexivity. Qed.

Lemma growth_factor_nonneg (r : Q) : - (1) <= r -> 0 <= 1 + r.
Proof.
  intros Hr. setoid_replace 0 with (1 + - (1)) by ring.
  apply Qplus_le_compat; [apply Qle_refl | exact Hr].
Qed.

(** X5: over exact arithmetic, when no yearly return is below -100%,
    a larger contribution and a larger starting principal never give a
    smaller value in any year. *)
Theorem calculate_fund_returns_monotone (c c' : Q) (rs : list Q) :
  c <= c' -> Forall (Qle (- (1))) rs ->
  forall p p' : Q,
    p <= p' ->
    Forall2 Qle (calculate_fund_returns c rs p)
                (calculate_fund_returns c' rs p').
Proof.
  intros Hc Hrs. induction Hrs as [|r rs Hr _ IH]; intros p p' Hp.
  - constructor.
  - rewrite !calculate_fund_returns_cons.
    assert (Hv : ((p + c) * (of_Z 1 + r))%num
                 <= ((p' + c') * (of_Z 1 + r))%num).
    { simpl. apply Qmult_le_compat_r.
      - now apply Qplus_le_compat.
      - now apply growth_factor_nonneg. }
    constructor; [exact Hv | now apply IH].
Qed.

(** X6: over exact arithmetic, with a contribution and a starting
    principal that are not negative and no yearly return below -100%,
    the account value is never negative. *)
Theorem calculate_fund_returns_nonneg (c : Q) (rs : list Q) :
  0 <= c -> Forall (Qle (- (1))) rs ->
  forall p : Q,
    0 <= p -> Forall (Qle 0) (calculate_fund_returns c rs p).
Proof.
  intros Hc Hrs. induction Hrs as [|r rs Hr _ IH]; intros p Hp.
  - constructor.
  - rewrite calculate_fund_returns_cons.
    assert (Hv : 0 <= ((p + c) * (of_Z 1 + r))%num).
    { simpl. apply Qmult_le_0_compat.
      - setoid_replace 0 with (0 + 0) by ring. now apply Qplus_le_compat.
      - now apply growth_factor_nonneg. }
    constructor; [exact Hv | now apply IH].
Qed.

(** X7: over exact arithmetic, with contributions and a starting
    principal that are not negative and no losing year, the account
    never falls: the starting principal followed by the trajectory is
    sorted. *)
Theorem calculate_fund_returns_never_falls (c : Q) (rs : list Q) :
  0 <= c -> Forall (Qle 0) rs ->
  forall p : Q,
    0 <= p -> Sorted Qle (p :: calculate_fund_returns c rs p).
Proof.
  intros Hc Hrs. induction Hrs as [|r rs Hr _ IH]; intros p Hp.
  - repeat constructor.
  - rewrite calculate_fund_returns_cons.
    assert (Hpc : p <= p + c).
    { setoid_replace p with (p + 0) at 1 by ring.
      apply Qplus_le_compat; [apply Qle_refl | exact Hc]. }
    assert (Hv : p <= ((p + c) * (of_Z 1 + r))%num).
    { simpl. apply Qle_trans with (p + c); [exact Hpc|].
      setoid_replace (p + c) with ((p + c) * 1) at 1 by ring.
      rewrite (Qmult_comm (p + c) 1), (Qmult_comm (p + c) (1 + r)).
      apply Qmult_le_compat_r.
      - setoid_replace 1 with (1 + 0) at 1 by ring.
        apply Qplus_le_compat; [apply Qle_refl | exact Hr].
      - apply Qle_trans with p; assumption. }
    constructor.
    + apply IH. apply Qle_trans with p; assumption.
    + constructor. exact Hv.
Qed.

(** X8: over exact arithmetic a year with a return of -100% resets the
    account: its value is 0 and the later years run as from an empty
    account, whatever came before. *)
Theorem calculate_fund_returns_total_loss (c : Q) (rs1 rs2 : list Q) :
  forall p : Q,
    Forall2 Qeq
      (calculate_fund_returns c (rs1 ++ - (1) :: rs2) p)
      (calculate_fund_returns c rs1 p
       ++ 0 :: calculate_fund_returns c rs2 0).
Proof.
  induction rs1 as [|r rs1 IH]; intros p.
  - cbn [app]. rewrite calculate_fund_returns_cons.
    assert (Hv : ((p + c) * (of_Z 1 + - (1)))%num == 0) by (simpl; ring).
    constructor; [exact Hv|].
    apply calculate_fund_returns_Qeq;
      [reflexivity | apply Forall2_Qeq_refl | exact Hv].
  - rewrite <- !app_comm_cons, !calculate_fund_returns_cons.
    rewrite <- app_comm_cons.
    constructor; [reflexivity | apply IH].
Qed.

Lemma calculate_fund_returns_flat (c p : Q) (n : nat) :
  forall (k : nat) (v : Q),
    v == p + inject_Z (Z.of_nat k) * c ->
    Forall2 Qeq
      (calculate_fund_returns c (repeat 0 n) v)
      (map (fun i => p + inject_Z (Z.of_nat i) * c) (seq (S k) n)).
Proof.
  induction n as [|n IH]; intros k v Hv.
  - constructor.
  - cbn [repeat seq map]. rewrite calculate_fund_returns_cons.
    assert (Hv' : ((v + c) * (of_Z 1 + 0))%num
                  == p + inject_Z (Z.of_nat (S k)) * c).
    { simpl of_Z. simpl add. simpl mul. rewrite Hv, Nat2Z.inj_succ.
      unfold Z.succ. rewrite inject_Z_plus. ring. }
    constructor; [exact Hv' | now apply IH].
Qed.

(** X9: over exact arithmetic, years of zero return only accumulate the
    contributions: after [i] such years the account holds the starting
    principal plus [i] contributions. *)
Theorem calculate_fund_returns_zero_returns (c p : Q) (n : nat) :
  Forall2 Qeq
    (calculate_fund_returns c (repeat 0 n) p)
    (map (fun i => p + inject_Z (Z.of_nat i) * c) (seq 1 n)).
Proof.
  apply calculate_fund_returns_flat. simpl. ring.
Qed.

Lemma calculate_fund_returns_monotone_witness :
  Forall2 Qle (calculate_fund_returns 100 [1 # 10; - (1 # 2)] 0)
              (calculate_fund_returns 200 [1 # 10; - (1 # 2)] 50).
Proof.
  apply (@calculate_fund_returns_monotone 100 200 [1 # 10; - (1 # 2)]).
  - discriminate.
  - repeat constructor; discriminate.
  - discriminate.
Defined.

Lemma calculate_fund_returns_nonneg_witness :
  Forall (Qle 0) (calculate_fund_returns 100 [- (1); 1 # 10] 0).
Proof.
  apply (@calculate_fund_returns_nonneg 100 [- (1); 1 # 10]).
  - discriminate.
  - repeat constructor; discriminate.
  - discriminate.
Defined.

Lemma calculate_fund_returns_never_falls_witness :
  Sorted Qle (1000 :: calculate_fund_returns 5500 [0; 1 # 10] 1000).
Proof.
  apply (@calculate_fund_returns_never_falls 5500 [0; 1 # 10]).
  - discriminate.
  - repeat constructor; discriminate.
  - discriminate.
Defined.

(** ** The sampler, the fund model and the trial runner *)

Section RunnerFacts.
Context {A Rng : Type} `{Number A} `{RandomSource A Rng}.

(** Drawing [a + b] deviates is drawing [a] and then [b]. *)
Lemma draws_add (a b : nat) :
  forall s : Rng,
    draws (a + b) s
    = (fst (draws a s) ++ fst (draws b (snd (draws a s))),
       snd (draws b (snd (draws a s)))).
Proof.
  induction a as [|a IH]; intros s; simpl.
  - now destruct (draws b s).
  - destruct (standard_normal s) as [z s1]. rewrite IH.
    now destruct (draws a s1).
Qed.

Lemma trials_add (fund : M Rng (list A)) (a b : nat) :
  forall s : Rng,
    trials fund (a + b) s
    = (l1 <- trials fund a ;; l2 <- trials fund b ;; ret (l1 ++ l2))%sim s.
Proof.
  induction a as [|a IH]; intros s.
  - simpl. unfold bind, ret.
    now destruct (trials fund b s) as [[l2|e] s2].
  - simpl. unfold bind, ret, lift.
    destruct (fund s) as [[traj|e] s1]; [|reflexivity].
    destruct (last_item traj) as [v|e]; [|reflexivity].
    rewrite IH. unfold bind, ret.
    destruct (trials fund a s1) as [[l1|e] s2]; [|reflexivity].
    now destruct (trials fund b s2) as [[l2|e] s3].
Qed.

(** X10: a batch can be run in two parts: [a + b] trials are [a] trials
    followed by [b] trials on the generator the first part left, the
    two batches appended; an exception in either part is the exception
    of the whole. *)
Theorem end_returns_per_trial_split (fund : M Rng (list A)) (a b : Z)
    (s : Rng) :
  (0 <= a)%Z -> (0 <= b)%Z ->
  end_returns_per_trial fund (a + b) s
  = (l1 <- end_returns_per_trial fund a ;;
     l2 <- end_returns_per_trial fund b ;;
     ret (l1 ++ l2))%sim s.
Proof.
  intros Ha Hb. unfold end_returns_per_trial.
  rewrite Z2Nat.inj_add by assumption. apply trials_add.
Qed.

Lemma trials_consume (return_mean return_std : A) (years : Z)
    (yearly_addition : A) (n : nat) :
  (0 < years)%Z ->
  forall s : Rng,
  exists batch : list A,
    trials (make_mutual_fund return_mean return_std years yearly_addition) n s
    = (Ok batch, snd (draws (n * Z.to_nat years) s))
    /\ length batch = n.
Proof.
  intros Hy. induction n as [|n IH]; intros s.
  - exists []. split; reflexivity.
  - pose proof (make_mutual_fund_ok return_mean return_std yearly_addition s
                  (Z.lt_le_incl _ _ Hy)) as Hfund.
    set (traj := calculate_fund_returns _ _ _) in Hfund.
    assert (Htraj : traj <> []).
    { intros E. apply (f_equal (@length A)) in E. unfold traj in E.
      rewrite calculate_fund_returns_length, !length_map, draws_length in E.
      simpl in E. lia. }
    destruct (last_item_ok Htraj) as [v Hv].
    destruct (IH (snd (draws (Z.to_nat years) s))) as (rest & Hrest & Hlen).
    exists (v :: rest). split; [|simpl; now rewrite Hlen].
    cbn [trials Nat.mul]. rewrite draws_add. cbn [snd].
    unfold bind, lift, ret. now rewrite Hfund, Hv, Hrest.
Qed.

(** X11: for a fund of at least one year and every generator, a run of
    [num_trials >= 0] trials cannot raise, returns exactly [num_trials]
    final values, and advances the generator by exactly
    [num_trials * years] draws. *)
Theorem end_returns_per_trial_total (return_mean return_std : A)
    (years : Z) (yearly_addition : A) (n : Z) (s : Rng) :
  (0 < years)%Z -> (0 <= n)%Z ->
  exists batch : list A,
    end_returns_per_trial
      (make_mutual_fund return_mean return_std years yearly_addition) n s
    = (Ok batch, snd (draws (Z.to_nat (n * years)) s))
    /\ Z.of_nat (length batch) = n.
Proof.
  intros Hy Hn. unfold end_returns_per_trial.
  destruct (trials_consume return_mean return_std yearly_addition
              (Z.to_nat n) Hy s) as (batch & Hrun & Hlen).
  exists batch. split.
  - rewrite Hrun. now rewrite Z2Nat.inj_mul by lia.
  - rewrite Hlen. lia.
Qed.

End RunnerFacts.

Lemma end_returns_per_trial_split_witness :
  end_returns_per_trial (make_mutual_fund 10 5 2 5500) (1 + 2)
    [1; 0; - (1); 2]
  = (l1 <- end_returns_per_trial (make_mutual_fund 10 5 2 5500) 1 ;;
     l2 <- end_returns_per_trial (make_mutual_fund 10 5 2 5500) 2 ;;
     ret (l1 ++ l2))%sim [1; 0; - (1); 2].
Proof.
  apply end_returns_per_trial_split; lia.
Defined.

Lemma end_returns_per_trial_total_witness :
  exists batch : list Q,
    end_returns_per_trial (make_mutual_fund 10 5 2 5500) 3 [1; 0; - (1); 2]
    = (Ok batch, snd (draws (Z.to_nat (3 * 2)) [1; 0; - (1); 2]))
    /\ Z.of_nat (length batch) = 3%Z.
Proof.
  apply (@end_returns_per_trial_total Q (list Q) _ _ 10 5 2 5500 3
           [1; 0; - (1); 2]); lia.
Defined.

(** ** Percentages and fractions *)

Lemma percent_rates (return_mean return_std : Q) (zs : list Q) :
  Forall2 Qeq
    (map (fun percent => percent / of_Z 100)%num
         (map (fun z => return_mean + return_std * z)%num zs))
    (map (fun z => return_mean / of_Z 100 + return_std / of_Z 100 * z)%num zs).
Proof.
  induction zs as [|z zs IH]; cbn [map]; constructor; [|exact IH].
  simpl. field.
Qed.

(** X12: over exact arithmetic the division of the sampled percentages
    by 100 is a change of unit of the parameters: the fund model run
    on [(mean, std)] in percent is the accumulator run on the rates the
    sampler gives for [(mean / 100, std / 100)], from the same
    generator state and leaving the same state. *)
Theorem make_mutual_fund_percent {Rng : Type} `{RandomSource Q Rng}
    (return_mean return_std : Q) (years : Z) (yearly_addition : Q)
    (s : Rng) :
  (0 <= years)%Z ->
  exists (fund_value_by_year rates : list Q) (s' : Rng),
    make_mutual_fund return_mean return_std years yearly_addition s
    = (Ok fund_value_by_year, s')
    /\ generate_return_rates (return_mean / of_Z 100)%num
         (return_std / of_Z 100)%num years s
       = (Ok rates, s')
    /\ Forall2 Qeq fund_value_by_year
         (calculate_fund_returns yearly_addition rates (of_Z 0)).
Proof.
  intros Hy. do 3 eexists. split; [|split].
  - now apply make_mutual_fund_ok.
  - now apply generate_return_rates_ok.
  - apply calculate_fund_returns_Qeq;
      [reflexivity | apply percent_rates | reflexivity].
Qed.

Lemma make_mutual_fund_percent_witness :
  exists (fund_value_by_year rates : list Q) (s' : list Q),
    make_mutual_fund 10 5 2 5500 [1; - (1)] = (Ok fund_value_by_year, s')
    /\ generate_return_rates (10 / 100) (5 / 100) 2 [1; - (1)] = (Ok rates, s')
    /\ Forall2 Qeq fund_value_by_year (calculate_fund_returns 5500 rates 0).
Proof.
  apply (@make_mutual_fund_percent (list Q) _ 10 5 2 5500 [1; - (1)]).
  discriminate.
Defined.

(** ** The notebook's cells *)

(** X13: whatever the generator, each of the notebook's four funds
    returns a trajectory with one value per entry of [years], the x
    axis it is plotted against, and each of the four trial cells
    returns [num_trials] final values; none of them can raise. *)
Theorem notebook_funds_run {Rng : Type} `{RandomSource float Rng}
    (fund : M Rng (list float)) (s : Rng) :
  In fund [get_fund1_returns; get_fund2_returns;
           get_fund3_returns; get_fund4_returns] ->
  (exists (value_by_year : list float) (s' : Rng),
      fund s = (Ok value_by_year, s')
      /\ length value_by_year = length years)
  /\ (exists (end_returns : list float) (s' : Rng),
        end_returns_per_trial fund num_trials s = (Ok end_returns, s')
        /\ Z.of_nat (length end_returns) = num_trials).
Proof.
  assert (Hgen : forall m sd : float,
    (exists (value_by_year : list float) (s' : Rng),
        make_mutual_fund m sd 30 5500%float s = (Ok value_by_year, s')
        /\ length value_by_year = length years)
    /\ (exists (end_returns : list float) (s' : Rng),
          end_returns_per_trial (make_mutual_fund m sd 30 5500%float)
            num_trials s = (Ok end_returns, s')
          /\ Z.of_nat (length end_returns) = num_trials)).
  { intros m sd. split.
    - do 2 eexists. split.
      + apply make_mutual_fund_ok. lia.
      + rewrite calculate_fund_returns_length, !length_map, draws_length.
        reflexivity.
    - destruct (trials_total m sd 5500%float (Z.to_nat num_trials)
                  (years := 30) eq_refl s)
        as (batch & s' & Hrun & Hlen).
      exists batch, s'. split; [exact Hrun|].
      rewrite Hlen. apply Z2Nat.id. discriminate. }
  intros [E|[E|[E|[E|[]]]]]; subst fund; apply Hgen.
Qed.

Lemma notebook_funds_run_witness :
  (exists (value_by_year : list float) (s' : list float),
      get_fund3_returns [0.3%float] = (Ok value_by_year, s')
      /\ length value_by_year = length years)
  /\ (exists (end_returns : list float) (s' : list float),
        end_returns_per_trial get_fund3_returns num_trials [0.3%float]
        = (Ok end_returns, s')
        /\ Z.of_nat (length end_returns) = num_trials).
Proof.
  apply (@notebook_funds_run (list float) _ get_fund3_returns [0.3%float]).
  right. right. left. reflexivity.
Defined.

(** X14: the cell that derives the standard deviations evaluates, in
    binary64, to the output the notebook records, and the four funds
    are defined with the means of [mutual_fund_mean_returns] and these
    standard deviations rounded to three decimals. *)
Theorem mutual_fund_std_returns_recorded {Rng : Type}
    `{RandomSource float Rng} :
  mutual_fund_std_returns
  = [5.214077968793518%float; 4.664821173448564%float;
     4.115564378103609%float; 3.5663075827586543%float]
  /\ Forall2 (fun computed used =>
                (PrimFloat.abs (computed - used) <? 0.0005)%float = true)
       mutual_fund_std_returns
       [5.214%float; 4.665%float; 4.116%float; 3.566%float]
  /\ map (fun mean_std =>
            make_mutual_fund (fst mean_std) (snd mean_std) 30 5500%float)
       (combine mutual_fund_mean_returns
          [5.214%float; 4.665%float; 4.116%float; 3.566%float])
     = [get_fund1_returns; get_fund2_returns;
        get_fund3_returns; get_fund4_returns].
Proof.
  split; [vm_compute; reflexivity|]. split; [|reflexivity].
  repeat constructor.
Qed.

(** ** The reported statistics: order, bounds and edge cases *)

Section StatisticsFacts.
Context {A : Type} `{Number A}.

Lemma reaching_permutation (l l' : list A) (t : A) :
  Permutation l l' ->
  length (reaching l t) = length (reaching l' t).
Proof.
  unfold reaching.
  induction 1 as [|x l l' _ IH|x y l|l l' l'' _ IH1 _ IH2]; simpl.
  - reflexivity.
  - destruct (t <=? x)%num; simpl; now rewrite IH.
  - destruct (t <=? x)%num, (t <=? y)%num; reflexivity.
  - now rewrite IH1.
Qed.

(** X15: the reported probability of a goal does not depend on the
    order of the trials in the batch, for any number type (binary64
    included). *)
Theorem goal_probability_permutation (l l' : list A) (t : A) (n : Z) :
  Permutation l l' ->
  goal_probability l t n = goal_probability l' t n.
Proof.
  intros Hperm. unfold goal_probability.
  now rewrite (reaching_permutation t Hperm).
Qed.

Lemma count_reaching_all (t : A) (l : list A) :
  Forall (fun v => (t <=? v)%num = true) l ->
  count_reaching t l = length l.
Proof.
  induction 1 as [|v l Hv _ IH]; simpl; [reflexivity|].
  now rewrite Hv, IH.
Qed.

Lemma count_reaching_none (t : A) (l : list A) :
  Forall (fun v => (t <=? v)%num = false) l ->
  count_reaching t l = O.
Proof.
  induction 1 as [|v l Hv _ IH]; simpl; [reflexivity|].
  now rewrite Hv, IH.
Qed.

(** X16: for a batch of [num_trials > 0] values, a goal that every
    trial reaches has probability 1 and a goal that no trial reaches
    has probability 0. *)
Theorem goal_probability_extremes (l : list A) (t : A) (n : Z) :
  n = Z.of_nat (length l) -> (0 < n)%Z ->
  (Forall (fun v => (t <=? v)%num = true) l ->
   exists p : Q, goal_probability l t n = Ok p /\ p == 1)
  /\ (Forall (fun v => (t <=? v)%num = false) l ->
      exists p : Q, goal_probability l t n = Ok p /\ p == 0).
Proof.
  intros Hlen Hn. split; intros Hall; eexists;
    (split; [now apply goal_probability_ok|]).
  - rewrite (count_reaching_all t Hall), <- Hlen.
    apply Qmult_inv_r. intros E.
    assert (Hz : (n = 0)%Z).
    { unfold Qeq in E. simpl in E. lia. }
    lia.
  - rewrite (count_reaching_none t Hall). unfold Qdiv. simpl inject_Z.
    apply Qmult_0_l.
Qed.


End StatisticsFacts.

Lemma goal_probability_permutation_witness :
  goal_probability [300000%float; 700000%float; 500000%float] 450000%float 3
  = goal_probability [700000%float; 300000%float; 500000%float] 450000%float 3.
Proof.
  apply (@goal_probability_permutation float _
           [300000%float; 700000%float; 500000%float]
           [700000%float; 300000%float; 500000%float] 450000%float 3).
  apply perm_swap.
Defined.

Lemma goal_probability_extremes_witness :
  exists p : Q,
    goal_probability [300000%float; 700000%float] 100000%float 2 = Ok p
    /\ p == 1.
Proof.
  apply (proj1 (@goal_probability_extremes float _
                  [300000%float; 700000%float] 100000%float 2
                  eq_refl eq_refl)).
  repeat constructor.
Defined.


(** ** The mean over exact arithmetic *)

Lemma sum_from (l : list Q) :
  forall acc : Q,
    fold_left (fun a x => a + x)%num l acc
    == acc + fold_left (fun a x => a + x)%num l (of_Z 0).
Proof.
  induction l as [|x l IH]; intros acc; simpl.
  - ring.
  - rewrite (IH (acc + x)), (IH (0 + x)). ring.
Qed.

Lemma sum_cons (x : Q) (l : list Q) : sum (x :: l) == x + sum l.
Proof.
  unfold sum. cbn [fold_left]. rewrite sum_from. simpl. ring.
Qed.

Lemma sum_permutation (l l' : list Q) :
  Permutation l l' -> sum l == sum l'.
Proof.
  induction 1 as [|x l l' _ IH|x y l|l l' l'' _ IH1 _ IH2].
  - reflexivity.
  - now rewrite !sum_cons, IH.
  - rewrite !sum_cons. ring.
  - now rewrite IH1.
Qed.

(** X18: over exact arithmetic the reported expected value does not
    depend on the order of the trials in the batch (in binary64 the
    left-to-right sum may round differently). *)
Theorem expected_return_permutation (l l' : list Q) (n : Z) :
  Permutation l l' ->
  result_Qeq (expected_return l n) (expected_return l' n).
Proof.
  intros Hperm. pose proof (sum_permutation Hperm) as Hsum.
  destruct l as [|x l], l' as [|x' l'].
  - simpl. destruct (n =? 0)%Z; simpl; reflexivity.
  - apply Permutation_nil in Hperm. discriminate.
  - apply Permutation_sym, Permutation_nil in Hperm. discriminate.
  - unfold expected_return, result_Qeq.
    change (sum (x :: l) / inject_Z n == sum (x' :: l') / inject_Z n).
    now rewrite Hsum.
Qed.

(** In binary64 the order does matter: [1e16 + 1] rounds back to
    [1e16]. *)
Example expected_return_order_in_binary64 :
  expected_return [1e16%float; 1%float; (-1e16)%float] 3
  <> expected_return [1e16%float; (-1e16)%float; 1%float] 3.
Proof. vm_compute. intros E. discriminate E. Qed.

Lemma sum_between (lo hi : Q) (l : list Q) :
  Forall (fun v => lo <= v <= hi) l ->
  inject_Z (Z.of_nat (length l)) * lo <= sum l
  /\ sum l <= inject_Z (Z.of_nat (length l)) * hi.
Proof.
  induction 1 as [|v l [Hlo Hhi] _ [IHlo IHhi]].
  - split; discriminate.
  - rewrite sum_cons. cbn [length]. rewrite Nat2Z.inj_succ.
    unfold Z.succ. rewrite inject_Z_plus.
    split.
    + setoid_replace ((inject_Z (Z.of_nat (length l)) + inject_Z 1) * lo)
        with (lo + inject_Z (Z.of_nat (length l)) * lo) by ring.
      now apply Qplus_le_compat.
    + setoid_replace ((inject_Z (Z.of_nat (length l)) + inject_Z 1) * hi)
        with (hi + inject_Z (Z.of_nat (length l)) * hi) by ring.
      now apply Qplus_le_compat.
Qed.

(** X19: over exact arithmetic, for a batch of [num_trials > 0] values
    that all lie between [lo] and [hi], the reported expected value
    lies between [lo] and [hi]. *)
Theorem expected_return_between (lo hi : Q) (l : list Q) (n : Z) :
  n = Z.of_nat (length l) -> (0 < n)%Z ->
  Forall (fun v => lo <= v <= hi) l ->
  exists m : Q, expected_return l n = Ok m /\ lo <= m <= hi.
Proof.
  intros Hlen Hn Hall.
  destruct (sum_between Hall) as [Hlo Hhi]. rewrite <- Hlen in Hlo, Hhi.
  assert (Hn' : 0 < inject_Z n).
  { change 0 with (inject_Z 0). now rewrite <- Zlt_Qlt. }
  exists (sum l / inject_Z n). split.
  - destruct l as [|x l]; [simpl in Hlen; lia | reflexivity].
  - split.
    + apply Qle_shift_div_l; [exact Hn'|]. now rewrite Qmult_comm.
    + apply Qle_shift_div_r; [exact Hn'|]. now rewrite Qmult_comm.
Qed.

Lemma expected_return_permutation_witness :
  result_Qeq (expected_return [1; 2; 3] 3) (expected_return [2; 1; 3] 3).
Proof.
  apply (@expected_return_permutation [1; 2; 3] [2; 1; 3] 3).
  apply perm_swap.
Defined.

Lemma expected_return_between_witness :
  exists m : Q, expected_return [1; 2; 3] 3 = Ok m /\ 1 <= m <= 3.
Proof.
  apply (@expected_return_between 1 3 [1; 2; 3] 3 eq_refl eq_refl).
  repeat constructor; discriminate.
Defined.

(** ** Not-a-number in the goal count *)

Lemma float_leb_nan_l (x : float) : (nan <=? x)%float = false.
Proof. rewrite leb_spec. reflexivity. Qed.

Lemma float_leb_nan_r (x : float) : (x <=? nan)%float = false.
Proof.
  rewrite leb_spec. change (Prim2SF nan) with S754_nan.
  now destruct (Prim2SF x).
Qed.

(** X20: in binary64 a final value that is NaN reaches no goal, so it
    only counts in the denominator, and a goal that is NaN is reached
    by no trial: its probability is 0. *)
Theorem goal_probability_nan (batch : list float) (t : float) (n : Z) :
  goal_probability (nan :: batch) t n = goal_probability batch t n
  /\ (n <> 0%Z ->
      exists p : Q, goal_probability batch nan n = Ok p /\ p == 0).
Proof.
  split.
  - unfold goal_probability, reaching. cbn [filter].
    change (t <=? nan)%num with (t <=? nan)%float.
    now rewrite float_leb_nan_r.
  - intros Hn. unfold goal_probability.
    destruct (Z.eqb_spec n 0) as [E|_]; [contradiction|].
    eexists. split; [reflexivity|].
    assert (Hnone : reaching batch nan = []).
    { unfold reaching. induction batch as [|v batch IH]; [reflexivity|].
      cbn [filter]. change (nan <=? v)%num with (nan <=? v)%float.
      now rewrite float_leb_nan_l. }
    rewrite Hnone. simpl. unfold Qdiv. apply Qmult_0_l.
Qed.

Lemma goal_probability_nan_witness :
  exists p : Q,
    goal_probability [300000%float; 700000%float] nan 2 = Ok p /\ p == 0.
Proof.
  apply (proj2 (@goal_probability_nan [300000%float; 700000%float]
                  0%float 2)).
  discriminate.
Defined.
